(** * Real Estate Data Extractor: a shallow embedding of
      [real-estate-ai-agent/real_estate_agents.py]

    The development follows the layout of the Python module:
    - the fragment of the Python runtime the module relies on ([str],
      [str.strip], truthiness, exceptions);
    - the BeautifulSoup tree ([Tag], string nodes, [find], [find_all],
      [get_text]) as the library (bs4 4.10 and later, with the
      [html.parser] builder) exposes it to [PropertyRecord.from_html];
    - [PropertyRecord] and [from_html];
    - [SimpleExtractionAgent] ([fetch_listing_html], [validate_schema],
      [extract]) and the CLI entry point [main], over an explicit world
      (request log, files, standard output);
    - the properties of the specification. *)

From Stdlib Require Import String Ascii Bool NArith ZArith Lia List.
Import ListNotations.
Local Open Scope list_scope.

(* ===================================================================== *)
(** ** Python runtime fragment *)
(* ===================================================================== *)

(** A Python [str] is a sequence of Unicode code points. *)
Definition str := list N.

(** Literals: the code points of an ASCII literal. *)
Definition py (s : string) : str := map N_of_ascii (list_ascii_of_string s).
Arguments py : simpl never.

(** [a == b] on [str]. *)
Fixpoint str_eqb (a b : str) : bool :=
  match a, b with
  | [], [] => true
  | x :: a', y :: b' => N.eqb x y && str_eqb a' b'
  | _, _ => false
  end.

(** [bool(s)] for a [str]: the empty string is falsy. *)
Definition str_truthy (s : str) : bool :=
  match s with [] => false | _ :: _ => true end.

(** [s or None]. *)
Definition or_None (s : str) : option str :=
  if str_truthy s then Some s else None.

(** [c.isspace()]: the code points CPython's [_PyUnicode_IsWhitespace]
    accepts (U+0009-000D, U+001C-0020, U+0085, U+00A0, U+1680,
    U+2000-200A, U+2028, U+2029, U+202F, U+205F, U+3000). *)
Definition isspace (c : N) : bool :=
  (((9 <=? c) && (c <=? 13)) || ((28 <=? c) && (c <=? 32))
   || (c =? 133) || (c =? 160) || (c =? 5760)
   || ((8192 <=? c) && (c <=? 8202))
   || (c =? 8232) || (c =? 8233) || (c =? 8239) || (c =? 8287)
   || (c =? 12288))%N.

Fixpoint lstrip (s : str) : str :=
  match s with
  | c :: s' => if isspace c then lstrip s' else s
  | [] => []
  end.

Definition rstrip (s : str) : str := rev (lstrip (rev s)).

(** [s.strip()] *)
Definition strip (s : str) : str := rstrip (lstrip s).

Fixpoint startswith (s prefix : str) : bool :=
  match prefix, s with
  | [], _ => true
  | p :: prefix', c :: s' => N.eqb p c && startswith s' prefix'
  | _ :: _, [] => false
  end.

(** [sub in s] on [str]: substring test. *)
Fixpoint str_in (sub s : str) : bool :=
  startswith s sub ||
  match s with
  | [] => false
  | _ :: s' => str_in sub s'
  end.

(** Exceptions the module can let escape. *)
Inductive exception : Type :=
| AttributeError            (* attribute access on [None] *)
| ConnectionError           (* requests.exceptions.ConnectionError *)
| Timeout                   (* requests.exceptions.Timeout *)
| HTTPError (status_code : Z)  (* raised by [raise_for_status] *)
| ParserRejectedMarkup      (* bs4: the builder gave up on the markup *)
| OSError                   (* [open], a write or a flush failed *)
| UnicodeEncodeError.       (* text the stream's encoding cannot hold *)

(** The outcome of a call: a value, or a raised exception. *)
Inductive result (A : Type) : Type :=
| Ok (a : A)
| Raise (e : exception).
Arguments Ok {A} a.
Arguments Raise {A} e.

Definition bind {A B : Type} (m : result A) (k : A -> result B) : result B :=
  match m with
  | Ok a => k a
  | Raise e => Raise e
  end.

Notation "x <- m ;; k" := (bind m (fun x => k))
  (at level 61, m at next level, right associativity).

(* ===================================================================== *)
(** ** The BeautifulSoup tree *)
(* ===================================================================== *)

(** The classes of string node the [html.parser] builder creates.
    All of them subclass [NavigableString], hence [str]. *)
Inductive string_class : Type :=
| NavigableString | CData | Comment | Declaration | Doctype
| ProcessingInstruction | Script | Stylesheet | TemplateString
| RubyTextString | RubyParenthesisString.

Definition string_class_eqb (a b : string_class) : bool :=
  match a, b with
  | NavigableString, NavigableString | CData, CData | Comment, Comment
  | Declaration, Declaration | Doctype, Doctype
  | ProcessingInstruction, ProcessingInstruction | Script, Script
  | Stylesheet, Stylesheet | TemplateString, TemplateString
  | RubyTextString, RubyTextString
  | RubyParenthesisString, RubyParenthesisString => true
  | _, _ => false
  end.

(** A page element: a [Tag] with its name, its attribute dict (an
    association list with unique keys; every attribute [from_html] reads
    is single-valued, so its value is a [str]) and its children, or a
    string node. *)
Inductive PageElement : Type :=
| Tag (name : str) (attrs : list (str * str)) (contents : list PageElement)
| Text (cls : string_class) (text : str).

(** The [BeautifulSoup] object is the document: its top-level nodes. *)
Definition BeautifulSoup := list PageElement.

(** [bool(el)]: [Tag.__bool__] is constantly true; a string node is a
    [str]. *)
Definition truthy (el : PageElement) : bool :=
  match el with
  | Tag _ _ _ => true
  | Text _ s => str_truthy s
  end.

(** [a or b] on the results of two searches: [a] when it is truthy,
    [b] otherwise. *)
Definition py_or (a b : option PageElement) : option PageElement :=
  match a with
  | Some el => if truthy el then a else b
  | None => b
  end.

(** Document order: an element followed by its descendants. *)
Fixpoint self_and_descendants (el : PageElement) : list PageElement :=
  match el with
  | Tag _ _ cs => el :: flat_map self_and_descendants cs
  | Text _ _ => [el]
  end.

(** [el.descendants] *)
Definition descendants (el : PageElement) : list PageElement :=
  match el with
  | Tag _ _ cs => flat_map self_and_descendants cs
  | Text _ _ => []
  end.

(** [soup.descendants] *)
Definition soup_descendants (soup : BeautifulSoup) : list PageElement :=
  flat_map self_and_descendants soup.

(** [attrs.get(key)] *)
Fixpoint dict_get (attrs : list (str * str)) (key : str) : option str :=
  match attrs with
  | [] => None
  | (k, v) :: rest => if str_eqb k key then Some v else dict_get rest key
  end.

(** [tag.get(key)]; a string node has no attributes. *)
Definition get (el : PageElement) (key : str) : option str :=
  match el with
  | Tag _ attrs _ => dict_get attrs key
  | Text _ _ => None
  end.

(** [SoupStrainer._matches(value, match_against)] for a [str] to match
    against: a missing value matches only a falsy target, a present one
    by equality. *)
Definition _matches (value : option str) (match_against : str) : bool :=
  match value with
  | None => negb (str_truthy match_against)
  | Some v => str_eqb v match_against
  end.

(** [SoupStrainer.search] for [find(name, attrs={key: value})]; string
    nodes never match a strainer that has a name or attributes. *)
Definition search_tag (name : option str) (attrs : list (str * str))
    (el : PageElement) : bool :=
  match el with
  | Tag n a _ =>
      match name with
      | None => true
      | Some want => str_eqb n want
      end
      && forallb (fun kv => _matches (dict_get a (fst kv)) (snd kv)) attrs
  | Text _ _ => false
  end.

(** [SoupStrainer.search] for [find(string=f)]: tags are not searched,
    a string node matches when [f] accepts it. *)
Definition search_string (f : str -> bool) (el : PageElement) : bool :=
  match el with
  | Tag _ _ _ => false
  | Text _ s => f s
  end.

(** [_find_all]: the generator is walked in document order, falsy
    elements are skipped, the strainer decides. *)
Definition find_all (strainer : PageElement -> bool) (soup : BeautifulSoup)
    : list PageElement :=
  filter (fun i => truthy i && strainer i) (soup_descendants soup).

(** [find] is [find_all] with [limit=1]: the first result or [None]. *)
Definition find (strainer : PageElement -> bool) (soup : BeautifulSoup)
    : option PageElement :=
  List.find (fun i => truthy i && strainer i) (soup_descendants soup).

(** [Tag.interesting_string_types]: the builder's string containers for
    script, style, template, rt and rp; [NavigableString] and [CData]
    otherwise. *)
Definition interesting_string_types (name : str) : list string_class :=
  if str_eqb name (py "script") then [Script]
  else if str_eqb name (py "style") then [Stylesheet]
  else if str_eqb name (py "template") then [TemplateString]
  else if str_eqb name (py "rt") then [RubyTextString]
  else if str_eqb name (py "rp") then [RubyParenthesisString]
  else [NavigableString; CData].

Definition class_in (c : string_class) (types : list string_class) : bool :=
  existsb (string_class_eqb c) types.

(** One step of [_all_strings(strip=True, types)]: a string node of a
    wanted class yields its stripped text unless that is empty. *)
Definition stripped_string (types : list string_class) (el : PageElement)
    : list str :=
  match el with
  | Tag _ _ _ => []
  | Text c s =>
      if class_in c types
      then (let value := strip s in
            if str_truthy value then [value] else [])
      else []
  end.

(** [el._all_strings(strip=True)] *)
Definition _all_strings (el : PageElement) : list str :=
  match el with
  | Tag name _ _ =>
      flat_map (stripped_string (interesting_string_types name))
               (descendants el)
  | Text _ _ => stripped_string [NavigableString; CData] el
  end.

(** [el.get_text(strip=True)]: the pieces joined by the empty
    separator. *)
Definition get_text_strip (el : PageElement) : str :=
  List.concat (_all_strings el).

(** [el.name]; a string node has no name. *)
Definition tag_name (el : PageElement) : option str :=
  match el with
  | Tag n _ _ => Some n
  | Text _ _ => None
  end.

(** [hasattr(el, "get_text")]: [get_text] is defined on [PageElement],
    so on tags and on string nodes alike. *)
Definition hasattr_get_text (el : PageElement) : bool := true.

(** [str(el).strip()] for a string node. *)
Definition str_strip (el : PageElement) : str :=
  match el with
  | Text _ s => strip s
  | Tag _ _ _ => []
  end.

(* ===================================================================== *)
(** ** PropertyRecord *)
(* ===================================================================== *)

Record PropertyRecord : Type := mkPropertyRecord {
  address : option str;
  price : option str;
  bedrooms : option Z;
  bathrooms : option Z;
  square_feet : option Z;
  lot_size : option str;
  year_built : option Z;
  property_type : option str;
  listing_agent : option str;
  days_on_market : option Z;
  mls_number : option str;
  description : option str;
  image_urls : list str;
  neighborhood : option str
}.

(** The strainers of [from_html]. *)
Definition by_testid (value : string) : PageElement -> bool :=
  search_tag None [(py "data-testid", py value)].

Definition by_name (name : string) : PageElement -> bool :=
  search_tag (Some (py name)) [].

Definition meta_description : PageElement -> bool :=
  search_tag (Some (py "meta")) [(py "name", py "description")].

Definition has_dollar : PageElement -> bool :=
  search_string (fun s => str_in (py "$") s).

(** Lines 71-74. *)
Definition extract_address (soup : BeautifulSoup) : option str :=
  let address_el := py_or (find (by_testid "address") soup)
                          (find (by_name "address") soup) in
  match address_el with
  | Some el => if truthy el then or_None (get_text_strip el) else None
  | None => None
  end.

(** Lines 76-81. *)
Definition extract_price (soup : BeautifulSoup) : option str :=
  let price_el := py_or (find (by_testid "price") soup)
                        (find has_dollar soup) in
  match price_el with
  | Some el =>
      if truthy el
      then Some (if hasattr_get_text el then get_text_strip el
                 else str_strip el)
      else None
  | None => None
  end.

(** Lines 83-88: [desc_el.get("content").strip()] raises
    [AttributeError] when [get] returns [None]. *)
Definition extract_description (soup : BeautifulSoup)
    : result (option str) :=
  let desc_el := py_or (find (by_testid "home-description-text") soup)
                       (find meta_description soup) in
  match desc_el with
  | Some el =>
      if truthy el
      then match tag_name el with
           | Some n =>
               if str_eqb n (py "meta")
               then match get el (py "content") with
                    | Some content => Ok (or_None (strip content))
                    | None => Raise AttributeError
                    end
               else Ok (or_None (get_text_strip el))
           | None => Ok (or_None (get_text_strip el))
           end
      else Ok None
  | None => Ok None
  end.

(** Line 95: the comprehension over [soup.find_all("img")], then
    [[:5]]. *)
Definition extract_image_urls (soup : BeautifulSoup) : list str :=
  firstn 5
    (flat_map (fun img =>
                 match get img (py "src") with
                 | Some src => if str_truthy src then [src] else []
                 | None => []
                 end)
              (find_all (by_name "img") soup)).

(** [PropertyRecord.from_html], from line 70 on: [soup] is the tree that
    [BeautifulSoup(html_text, "html.parser")] built on line 68. *)
Definition from_soup (soup : BeautifulSoup) : result PropertyRecord :=
  let address := extract_address soup in
  let price := extract_price soup in
  description <- extract_description soup ;;
  Ok {| address := address;
        price := price;
        bedrooms := None;
        bathrooms := None;
        square_feet := None;
        lot_size := None;
        year_built := None;
        property_type := None;
        listing_agent := None;
        days_on_market := None;
        mls_number := None;
        description := description;
        image_urls := extract_image_urls soup;
        neighborhood := None |}.

(* ===================================================================== *)
(** ** The world of a run: requests, files, standard output *)
(* ===================================================================== *)

(** What [requests.get] is called with. *)
Record Request : Type := mkRequest {
  req_url : str;
  req_user_agent : str;
  req_timeout : Z
}.

(** What [requests.get] does: it raises [ConnectionError] or [Timeout],
    or returns a response with a status code and a body. *)
Inductive http_outcome : Type :=
| ConnectionFailed
| TimedOut
| Response (status_code : Z) (text : str).

(** [response.raise_for_status()]: [HTTPError] for the client and server
    error ranges, nothing otherwise. *)
Definition raise_for_status (status_code : Z) : result unit :=
  if ((400 <=? status_code) && (status_code <? 600))%Z
  then Raise (HTTPError status_code)
  else Ok tt.

Record Metadata : Type := mkMetadata {
  extracted_at : str;
  source_url : str;
  schema_version : str
}.

(** The payload [main] serialises; [data] is [asdict(record)]. *)
Record Payload : Type := mkPayload {
  metadata : Metadata;
  data : PropertyRecord
}.

(** What a write left in a file or on standard output: the whole JSON
    text of a payload, or a prefix of it when the write raised on the
    way. *)
Inductive Written : Type :=
| Whole (payload : Payload)
| Interrupted (payload : Payload).

(** How a write ends: it completes; it raises before anything is
    written ([open] on a missing directory, [print] on text the terminal
    cannot encode); or it raises with part of the text written. *)
Inductive write_outcome : Type :=
| Completes
| RaisesBefore (e : exception)
| RaisesDuring (e : exception).

(** The observable state of a run: the requests issued so far (oldest
    first), the writes to files (newest first, each with the path it
    went to and what it left there) and what was printed. *)
Record World : Type := mkWorld {
  requests_sent : list Request;
  files : list (str * Written);
  stdout : list Written
}.

(** Calls that act on the world and may raise. *)
Definition io (A : Type) : Type := World -> result A * World.

Definition io_ret {A : Type} (a : A) : io A := fun w => (Ok a, w).

Definition io_bind {A B : Type} (m : io A) (k : A -> io B) : io B :=
  fun w =>
    match m w with
    | (Ok a, w') => k a w'
    | (Raise e, w') => (Raise e, w')
    end.

Definition io_lift {A : Type} (r : result A) : io A := fun w => (r, w).

Notation "x <~ m ;; k" := (io_bind m (fun x => k))
  (at level 61, m at next level, right associativity).

Definition send (req : Request) : io unit :=
  fun w => (Ok tt, {| requests_sent := requests_sent w ++ [req];
                      files := files w;
                      stdout := stdout w |}).

(** [with open(path, "w") as f: json.dump(payload, f, ...)]: when
    [open] raises the file is untouched; when the dump or the closing
    flush raises the file is left with part of the text. *)
Definition write_json (outcome : write_outcome) (path : str)
    (payload : Payload) : io unit :=
  fun w =>
    match outcome with
    | Completes =>
        (Ok tt, {| requests_sent := requests_sent w;
                   files := (path, Whole payload) :: files w;
                   stdout := stdout w |})
    | RaisesBefore e => (Raise e, w)
    | RaisesDuring e =>
        (Raise e, {| requests_sent := requests_sent w;
                     files := (path, Interrupted payload) :: files w;
                     stdout := stdout w |})
    end.

(** [print(json.dumps(payload, ...))], which can raise as well. *)
Definition print_json (outcome : write_outcome) (payload : Payload)
    : io unit :=
  fun w =>
    match outcome with
    | Completes =>
        (Ok tt, {| requests_sent := requests_sent w;
                   files := files w;
                   stdout := stdout w ++ [Whole payload] |})
    | RaisesBefore e => (Raise e, w)
    | RaisesDuring e =>
        (Raise e, {| requests_sent := requests_sent w;
                     files := files w;
                     stdout := stdout w ++ [Interrupted payload] |})
    end.

(* ===================================================================== *)
(** ** SimpleExtractionAgent and the CLI *)
(* ===================================================================== *)

Record SimpleExtractionAgent : Type := mkAgent {
  api_token : option str;
  proxy_zone : option str;
  web_unblock_zone : option str;
  llm_api_key : option str
}.

Record Args : Type := mkArgs {
  url : str;
  output : str
}.

Definition user_agent : str :=
  py "Mozilla/5.0 (Macintosh; Intel Mac OS X 10_15_7) AppleWebKit/537.36 (KHTML, like Gecko) Chrome/126.0 Safari/537.36".

(** [validate_schema] *)
Definition validate_schema (record : PropertyRecord) : PropertyRecord :=
  record.

Section Run.

(** The libraries and the process environment a run depends on. *)
Variable html_parser : str -> result BeautifulSoup.
    (* BeautifulSoup(html_text, "html.parser"): a tree, or an
       exception on markup the builder rejects *)
Variable network : Request -> http_outcome.   (* requests.get *)
Variable getenv : str -> option str.          (* os.getenv *)
Variable utcnow_isoformat : str.  (* datetime.utcnow().isoformat() *)
Variable file_write : str -> Payload -> write_outcome.
    (* how writing a payload to a path ends *)
Variable stdout_write : Payload -> write_outcome.
    (* how printing a payload ends *)

(** [PropertyRecord.from_html] *)
Definition from_html (html_text : str) : result PropertyRecord :=
  soup <- html_parser html_text ;;
  from_soup soup.

(** [fetch_listing_html] *)
Definition fetch_listing_html (self : SimpleExtractionAgent)
    (listing_url : str) : io str :=
  let req := {| req_url := listing_url;
                req_user_agent := user_agent;
                req_timeout := 30 |} in
  _ <~ send req ;;
  match network req with
  | ConnectionFailed => io_lift (Raise ConnectionError)
  | TimedOut => io_lift (Raise Timeout)
  | Response status_code text =>
      _ <~ io_lift (raise_for_status status_code) ;;
      io_ret text
  end.

(** [extract] *)
Definition extract (self : SimpleExtractionAgent) (listing_url : str)
    : io PropertyRecord :=
  html_text <~ fetch_listing_html self listing_url ;;
  parsed <~ io_lift (from_html html_text) ;;
  let validated := validate_schema parsed in
  io_ret validated.

(** [main] from line 149 on: [args] is what [parse_args()] returned on
    line 147 (on a usage error or [--help] argparse ends the process
    there, before anything below runs). *)
Definition main (args : Args) : io Z :=
  let agent := {| api_token := getenv (py "API_TOKEN");
                  proxy_zone := getenv (py "PROXY_ZONE");
                  web_unblock_zone := getenv (py "WEB_UNBLOCK_ZONE");
                  llm_api_key := getenv (py "LLM_API_KEY") |} in
  record <~ extract agent (url args) ;;
  let payload :=
    {| metadata := {| extracted_at := utcnow_isoformat ++ py "Z";
                      source_url := url args;
                      schema_version := py "1.0" |};
       data := record |} in
  _ <~ write_json (file_write (output args) payload) (output args)
                  payload ;;
  _ <~ print_json (stdout_write payload) payload ;;
  io_ret 0%Z.

End Run.

(** [raise SystemExit(main())]: the status is what [main] returned; an
    exception that escapes ends the interpreter with status 1. *)
Definition exit_status (r : result Z) : Z :=
  match r with
  | Ok code => code
  | Raise _ => 1%Z
  end.

(* ===================================================================== *)
(** ** Documents used as examples *)
(* ===================================================================== *)

(** [<meta name="description">] *)
Definition doc_meta_without_content : BeautifulSoup :=
  [Tag (py "meta") [(py "name", py "description")] []].

(** [<meta name="description" content="Cozy 3BR home">] *)
Definition doc_cozy : BeautifulSoup :=
  [Tag (py "meta")
       [(py "name", py "description"); (py "content", py "Cozy 3BR home")]
       []].

(** [<div data-testid="address"> 123 Main St </div>] *)
Definition doc_address : BeautifulSoup :=
  [Tag (py "div") [(py "data-testid", py "address")]
       [Text NavigableString (py " 123 Main St ")]].

(** [<div data-testid="address"> 12 <b> Main </b> St </div>] *)
Definition doc_address_nested : BeautifulSoup :=
  [Tag (py "div") [(py "data-testid", py "address")]
       [Text NavigableString (py " 12 ");
        Tag (py "b") [] [Text NavigableString (py " Main ")];
        Text NavigableString (py " St ")]].

(** [<span data-testid="price"> </span>] *)
Definition doc_blank_price : BeautifulSoup :=
  [Tag (py "span") [(py "data-testid", py "price")]
       [Text NavigableString (py " ")]].


(** [<!-- $ per month --><p>Listed at $450,000</p>] *)
Definition doc_comment_then_listed : BeautifulSoup :=
  [Text Comment (py " $ per month ");
   Tag (py "p") [] [Text NavigableString (py "Listed at $450,000")]].

(** [<img src="">] *)
Definition doc_img_empty_src : BeautifulSoup :=
  [Tag (py "img") [(py "src", [])] []].

(** [<div><img src="a.png"><img alt="x"><img src=""></div><img src="b.png">] *)
Definition doc_gallery : BeautifulSoup :=
  [Tag (py "div") []
       [Tag (py "img") [(py "src", py "a.png")] [];
        Tag (py "img") [(py "alt", py "x")] [];
        Tag (py "img") [(py "src", [])] []];
   Tag (py "img") [(py "src", py "b.png")] []].

(* ===================================================================== *)
(** ** What the specification counts *)
(* ===================================================================== *)

(** An image element that carries a source attribute, whatever its
    value. *)
Definition img_with_src (el : PageElement) : bool :=
  match el with
  | Tag n a _ =>
      str_eqb n (py "img")
      && match dict_get a (py "src") with Some _ => true | None => false end
  | Text _ _ => false
  end.

(** An image element whose source attribute is a non-empty string. *)
Definition img_with_nonempty_src (el : PageElement) : bool :=
  match el with
  | Tag n a _ =>
      str_eqb n (py "img")
      && match dict_get a (py "src") with
         | Some s => str_truthy s
         | None => false
         end
  | Text _ _ => false
  end.

(** The source of an element ([""] when it has none). *)
Definition src_of (el : PageElement) : str :=
  match get el (py "src") with Some s => s | None => [] end.

Definition count_img_with_src (soup : BeautifulSoup) : nat :=
  length (filter img_with_src (soup_descendants soup)).

Definition count_img_with_nonempty_src (soup : BeautifulSoup) : nat :=
  length (filter img_with_nonempty_src (soup_descendants soup)).

(** The non-empty image sources of a document, in document order. *)
Definition img_srcs (soup : BeautifulSoup) : list str :=
  map src_of (filter img_with_nonempty_src (soup_descendants soup)).

(** The reserved fields of a record are all absent. *)
Definition reserved_fields_absent (r : PropertyRecord) : Prop :=
  bedrooms r = None /\ bathrooms r = None /\ square_feet r = None /\
  lot_size r = None /\ year_built r = None /\ property_type r = None /\
  listing_agent r = None /\ days_on_market r = None /\
  mls_number r = None /\ neighborhood r = None.

(** The request [fetch_listing_html] issues for a URL. *)
Definition request_for (listing_url : str) : Request :=
  {| req_url := listing_url; req_user_agent := user_agent;
     req_timeout := 30 |}.

(** A fetch that fails: no connection, a timeout, or a status in the
    client or server error range. *)
Definition fetch_fails (o : http_outcome) : Prop :=
  match o with
  | ConnectionFailed | TimedOut => True
  | Response status_code _ => (400 <= status_code < 600)%Z
  end.

(** The element the description is read from. *)
Definition desc_el (soup : BeautifulSoup) : option PageElement :=
  py_or (find (by_testid "home-description-text") soup)
        (find meta_description soup).

(** A string that neither starts nor ends with whitespace. *)
Definition starts_clean (s : str) : Prop :=
  match s with
  | c :: _ => isspace c = false
  | [] => True
  end.

Definition trimmed (s : str) : Prop :=
  starts_clean s /\ starts_clean (rev s).

(** The exception a failing fetch raises. *)
Definition fetch_exception (o : http_outcome) : exception :=
  match o with
  | ConnectionFailed => ConnectionError
  | TimedOut => Timeout
  | Response status_code _ => HTTPError status_code
  end.

(** A run with nothing in the environment, no file and no request yet. *)
Definition args0 : Args :=
  {| url := py "https://example.com/listing/1";
     output := py "output.json" |}.

Definition world0 : World :=
  {| requests_sent := []; files := []; stdout := [] |}.

Definition no_env : str -> option str := fun _ => None.

Definition now0 : str := py "2024-07-01T12:00:00".

(** A server that answers 404 with a short page. *)
Definition network_404 : Request -> http_outcome :=
  fun _ => Response 404 (py "<h1>Not Found</h1>").

(** A server that answers 304 with an empty body, and the builder as
    far as such a run consults it: the tree of an empty body is empty. *)
Definition network_304 : Request -> http_outcome :=
  fun _ => Response 304 [].

Definition parser_of_empty_body : str -> result BeautifulSoup :=
  fun _ => Ok [].

(** A writable directory and a terminal that takes any text. *)
Definition file_write_ok : str -> Payload -> write_outcome :=
  fun _ _ => Completes.

Definition stdout_write_ok : Payload -> write_outcome :=
  fun _ => Completes.

(** An output path in a directory that does not exist, and a terminal
    whose encoding cannot hold the text. *)
Definition file_write_no_directory : str -> Payload -> write_outcome :=
  fun _ _ => RaisesBefore OSError.

Definition stdout_write_unencodable : Payload -> write_outcome :=
  fun _ => RaisesBefore UnicodeEncodeError.

(* ===================================================================== *)
(** ** Further notions: defaults, files, example runs *)
(* ===================================================================== *)

(** [PropertyRecord()]: every field at the default the dataclass
    declares (lines 45-58). *)
Definition default_record : PropertyRecord :=
  {| address := None;
     price := None;
     bedrooms := None;
     bathrooms := None;
     square_feet := None;
     lot_size := None;
     year_built := None;
     property_type := None;
     listing_agent := None;
     days_on_market := None;
     mls_number := None;
     description := None;
     image_urls := [];
     neighborhood := None |}.

(** The payload [main] builds from a record (lines 157-164). *)
Definition payload_of (now : str) (args : Args) (record : PropertyRecord)
    : Payload :=
  {| metadata := {| extracted_at := now ++ py "Z";
                    source_url := url args;
                    schema_version := py "1.0" |};
     data := record |}.

(** The world after the one request of a fetch. *)
Definition after_request (listing_url : str) (w : World) : World :=
  {| requests_sent := requests_sent w ++ [request_for listing_url];
     files := files w;
     stdout := stdout w |}.

(** A string node that is no match for the dollar search. *)
Definition text_without_dollar (el : PageElement) : Prop :=
  exists cls s, el = Text cls s /\ str_in (py "$") s = false.

(** [<address> 1 Elm St </address><div data-testid="address">2 Oak Ave</div>] *)
Definition doc_two_addresses : BeautifulSoup :=
  [Tag (py "address") [] [Text NavigableString (py " 1 Elm St ")];
   Tag (py "div") [(py "data-testid", py "address")]
       [Text NavigableString (py "2 Oak Ave")]].

(** [<address> 1 Elm St </address>] *)
Definition doc_address_tag : BeautifulSoup :=
  [Tag (py "address") [] [Text NavigableString (py " 1 Elm St ")]].

(** [Hello, world] *)
Definition doc_plain_text : BeautifulSoup :=
  [Text NavigableString (py "Hello, world")].

(** Six images, [<img src="1.png">] to [<img src="6.png">]. *)
Definition doc_six_images : BeautifulSoup :=
  map (fun src => Tag (py "img") [(py "src", src)] [])
      [py "1.png"; py "2.png"; py "3.png"; py "4.png"; py "5.png";
       py "6.png"].

(** Two page texts and the builder on them (all that a run on either
    consults). *)
Definition html_cozy : str :=
  py "<meta name='description' content='Cozy 3BR home'>".

Definition html_meta_without_content : str :=
  py "<meta name='description'>".

Definition parser_of_examples : str -> result BeautifulSoup :=
  fun html_text =>
    if str_eqb html_text html_cozy then Ok doc_cozy
    else if str_eqb html_text html_meta_without_content
         then Ok doc_meta_without_content
         else Ok [].

(** Servers that answer 200 with those pages. *)
Definition network_cozy : Request -> http_outcome :=
  fun _ => Response 200 html_cozy.

Definition network_meta_without_content : Request -> http_outcome :=
  fun _ => Response 200 html_meta_without_content.

(** An element whose [data-testid] attribute has the given value. *)
Definition has_testid (value : string) (el : PageElement) : bool :=
  match el with
  | Tag _ a _ =>
      match dict_get a (py "data-testid") with
      | Some v => str_eqb v (py value)
      | None => false
      end
  | Text _ _ => false
  end.


(** A string node, of whatever class, with a dollar sign (U+0024) in
    it. *)
Definition is_dollar_string (el : PageElement) : bool :=
  match el with
  | Tag _ _ _ => false
  | Text _ s => existsb (N.eqb 36) s
  end.

(** [el] is the first node of the document, in document order, with the
    property [p]; no node of the document has it. *)
Definition first_in_document (p : PageElement -> bool)
    (soup : BeautifulSoup) (el : PageElement) : Prop :=
  exists before after,
    soup_descendants soup = before ++ el :: after /\
    p el = true /\
    forall x, In x before -> p x = false.

Definition none_in_document (p : PageElement -> bool)
    (soup : BeautifulSoup) : Prop :=
  forall x, In x (soup_descendants soup) -> p x = false.




(** [<p>From $1 a day</p><span data-testid="price"> $450,000 </span>
     <span data-testid="price">$9</span>] *)
Definition doc_price_after_text : BeautifulSoup :=
  [Tag (py "p") [] [Text NavigableString (py "From $1 a day")];
   Tag (py "span") [(py "data-testid", py "price")]
       [Text NavigableString (py " $450,000 ")];
   Tag (py "span") [(py "data-testid", py "price")]
       [Text NavigableString (py "$9")]].

(** [<b>Sale</b><p> Listed at $450,000 </p><p>or $2,000 a month</p>] *)
Definition doc_two_dollar_texts : BeautifulSoup :=
  [Tag (py "b") [] [Text NavigableString (py "Sale")];
   Tag (py "p") [] [Text NavigableString (py " Listed at $450,000 ")];
   Tag (py "p") [] [Text NavigableString (py "or $2,000 a month")]].


(* ===================================================================== *)
(** ** Basic facts *)
(* ===================================================================== *)

Lemma str_eqb_eq (a b : str) : str_eqb a b = true <-> a = b.
Proof.
  revert b; induction a as [|x a IH]; intros [|y b]; simpl;
    try (split; [discriminate | discriminate]); try tauto.
  rewrite andb_true_iff, N.eqb_eq, IH.
  split; [intros [-> ->]; reflexivity | intros E; inversion E; auto].
Qed.


Lemma or_None_not_empty (s : str) : or_None s <> Some [].
Proof. destruct s; simpl; discriminate. Qed.

Lemma or_None_cases (s : str) :
  (s = [] /\ or_None s = None) \/ (s <> [] /\ or_None s = Some s).
Proof. destruct s; [left | right]; split; auto; discriminate. Qed.

(** What [from_soup] returns, field by field. *)
Lemma from_soup_Ok (soup : BeautifulSoup) (r : PropertyRecord) :
  from_soup soup = Ok r ->
  address r = extract_address soup /\
  price r = extract_price soup /\
  extract_description soup = Ok (description r) /\
  image_urls r = extract_image_urls soup /\
  reserved_fields_absent r.
Proof.
  unfold from_soup, bind.
  destruct (extract_description soup) as [d|e]; [|discriminate].
  intros E; injection E as <-; simpl.
  unfold reserved_fields_absent; simpl; repeat split; reflexivity.
Qed.

(** [from_soup] returns exactly when the description step does. *)
Lemma from_soup_returns (soup : BeautifulSoup) (d : option str) :
  extract_description soup = Ok d ->
  exists r, from_soup soup = Ok r /\ description r = d /\
            address r = extract_address soup /\
            price r = extract_price soup /\
            image_urls r = extract_image_urls soup.
Proof.
  intros E; unfold from_soup; rewrite E; simpl.
  eexists; split; [reflexivity|]; simpl; auto.
Qed.

Lemma from_soup_raises (soup : BeautifulSoup) (e : exception) :
  extract_description soup = Raise e -> from_soup soup = Raise e.
Proof. intros E; unfold from_soup; rewrite E; reflexivity. Qed.

(* ===================================================================== *)
(** ** Searching *)
(* ===================================================================== *)

(** [find] returns the first element of the document, in document
    order, that is truthy and that the strainer accepts. *)
Lemma find_first (strainer : PageElement -> bool) (soup : BeautifulSoup)
    (el : PageElement) :
  find strainer soup = Some el ->
  truthy el = true /\ strainer el = true /\
  exists before after,
    soup_descendants soup = before ++ el :: after /\
    forall x, In x before -> truthy x && strainer x = false.
Proof.
  unfold find. generalize (soup_descendants soup) as l.
  induction l as [|x l IH]; simpl; [discriminate|].
  destruct (truthy x && strainer x) eqn:E.
  - intros H; injection H as <-.
    apply andb_true_iff in E. destruct E as [E1 E2].
    repeat split; auto. exists [], l. split; [reflexivity|].
    intros y [].
  - intros H. destruct (IH H) as (H1 & H2 & before & after & Hl & Hb).
    repeat split; auto. exists (x :: before), after.
    split; [simpl; now rewrite Hl|].
    intros y [<- | Hy]; auto.
Qed.

(** [find] returns [None] when nothing in the document matches. *)
Lemma find_None (strainer : PageElement -> bool) (soup : BeautifulSoup) :
  find strainer soup = None ->
  forall x, In x (soup_descendants soup) ->
            truthy x && strainer x = false.
Proof. unfold find. intros H x Hx. exact (find_none _ _ H x Hx). Qed.

Lemma by_testid_inv (value : string) (el : PageElement) :
  str_truthy (py value) = true ->
  by_testid value el = true ->
  exists n a cs, el = Tag n a cs /\
                 dict_get a (py "data-testid") = Some (py value).
Proof.
  intros Hv. destruct el as [n a cs|c t]; simpl; [|discriminate].
  intros H. exists n, a, cs. split; [reflexivity|].
  rewrite andb_true_r in H. unfold _matches in H.
  destruct (dict_get a (py "data-testid")) as [v|].
  - apply str_eqb_eq in H. now subst.
  - rewrite Hv in H. discriminate.
Qed.

Lemma meta_description_inv (el : PageElement) :
  meta_description el = true ->
  tag_name el = Some (py "meta") /\
  get el (py "name") = Some (py "description").
Proof.
  destruct el as [n a cs|c t]; simpl; [|discriminate].
  rewrite andb_true_r, andb_true_iff, str_eqb_eq. intros [-> H].
  split; [reflexivity|]. unfold _matches in H.
  destruct (dict_get a (py "name")) as [v|]; [|discriminate].
  apply str_eqb_eq in H. now subst.
Qed.

Lemma has_dollar_inv (el : PageElement) :
  has_dollar el = true ->
  exists cls s, el = Text cls s /\ str_in (py "$") s = true.
Proof.
  destruct el as [n a cs|c t]; simpl; [discriminate|].
  intros H. now exists c, t.
Qed.

(** [find] only returns truthy elements, so [or] keeps the first
    search when it found something. *)
Lemma find_truthy (strainer : PageElement -> bool) (soup : BeautifulSoup)
    (el : PageElement) :
  find strainer soup = Some el -> truthy el = true.
Proof. intros H. now apply find_first in H. Qed.

Lemma py_or_find_l (strainer : PageElement -> bool) (soup : BeautifulSoup)
    (el : PageElement) (b : option PageElement) :
  find strainer soup = Some el -> py_or (find strainer soup) b = Some el.
Proof.
  intros H. rewrite H. simpl. now rewrite (find_truthy _ _ _ H).
Qed.


Lemma find_None_intro (strainer : PageElement -> bool)
    (soup : BeautifulSoup) :
  (forall x, In x (soup_descendants soup) ->
             truthy x && strainer x = false) ->
  find strainer soup = None.
Proof.
  unfold find. generalize (soup_descendants soup) as l.
  induction l as [|x l IH]; intros H; simpl; [reflexivity|].
  rewrite (H x (or_introl eq_refl)). apply IH.
  intros y Hy. apply H. now right.
Qed.

Lemma find_all_nil_intro (strainer : PageElement -> bool)
    (soup : BeautifulSoup) :
  (forall x, In x (soup_descendants soup) ->
             truthy x && strainer x = false) ->
  find_all strainer soup = [].
Proof.
  unfold find_all. generalize (soup_descendants soup) as l.
  induction l as [|x l IH]; intros H; simpl; [reflexivity|].
  rewrite (H x (or_introl eq_refl)). apply IH.
  intros y Hy. apply H. now right.
Qed.

(* ===================================================================== *)
(** ** Totality of the extractor *)
(* ===================================================================== *)


(** C1. The extractor is not total: on the document
    [<meta name="description">] the matched [meta] element lacks the
    [content] attribute, [desc_el.get("content")] is [None] and
    [from_html] raises [AttributeError] instead of returning a record. *)
Theorem from_html_raises_on_meta_without_content :
  from_soup doc_meta_without_content = Raise AttributeError.
Proof. reflexivity. Qed.

(* ===================================================================== *)
(** ** Reserved fields, validation, configuration *)
(* ===================================================================== *)

(** C7. Whatever the document, the record [from_html] returns has
    bedrooms, bathrooms, square_feet, lot_size, year_built,
    property_type, listing_agent, days_on_market, mls_number and
    neighborhood absent. *)
Theorem reserved_fields_always_absent :
  forall (soup : BeautifulSoup) (r : PropertyRecord),
    from_soup soup = Ok r ->
    bedrooms r = None /\ bathrooms r = None /\ square_feet r = None /\
    lot_size r = None /\ year_built r = None /\ property_type r = None /\
    listing_agent r = None /\ days_on_market r = None /\
    mls_number r = None /\ neighborhood r = None.
Proof.
  intros soup r H. apply from_soup_Ok in H.
  destruct H as (_ & _ & _ & _ & H). exact H.
Qed.

Lemma reserved_fields_always_absent_witness :
  exists r, from_soup doc_cozy = Ok r /\ reserved_fields_absent r.
Proof.
  eexists; split; [reflexivity|].
  apply (reserved_fields_always_absent doc_cozy); reflexivity.
Defined.

(** C8. [validate_schema] is the identity, so [extract] returns what
    parsing the fetched text returns: the same record, or the same
    exception, in the same world. *)
Theorem validate_schema_identity :
  (forall r : PropertyRecord, validate_schema r = r) /\
  (forall html_parser network self listing_url w,
      extract html_parser network self listing_url w =
      (html_text <~ fetch_listing_html network self listing_url ;;
       io_lift (from_html html_parser html_text)) w).
Proof.
  split; [reflexivity|].
  intros p net self u w. unfold extract, io_bind.
  destruct (fetch_listing_html net self u w) as [[t|e] w']; [|reflexivity].
  unfold io_lift, io_ret, validate_schema.
  destruct (from_html p t); reflexivity.
Qed.

(** C9. The configuration does not interfere: two orchestrators that
    differ in api_token, proxy_zone, web_unblock_zone and llm_api_key
    fetch and extract alike, and two runs of [main] under different
    environments end alike. *)
Theorem configuration_noninterference :
  (forall html_parser network (a1 a2 : SimpleExtractionAgent) listing_url w,
      fetch_listing_html network a1 listing_url w =
      fetch_listing_html network a2 listing_url w /\
      extract html_parser network a1 listing_url w =
      extract html_parser network a2 listing_url w) /\
  (forall html_parser network (getenv1 getenv2 : str -> option str)
          now file_write stdout_write args w,
      main html_parser network getenv1 now file_write stdout_write args w =
      main html_parser network getenv2 now file_write stdout_write args w).
Proof.
  split; intros; [split|]; reflexivity.
Qed.

(* ===================================================================== *)
(** ** Image URLs *)
(* ===================================================================== *)

(** The comprehension of line 95 keeps, in document order, the source
    of every image element whose source is a non-empty string. *)
Lemma comprehension_img_srcs (l : list PageElement) :
  flat_map (fun img =>
              match get img (py "src") with
              | Some src => if str_truthy src then [src] else []
              | None => []
              end)
           (filter (fun i => truthy i && by_name "img" i) l)
  = map src_of (filter img_with_nonempty_src l).
Proof.
  induction l as [|el l IH]; [reflexivity|].
  cbn [filter]. destruct el as [n a cs|c t].
  - replace (truthy (Tag n a cs) && by_name "img" (Tag n a cs))
      with (str_eqb n (py "img"))
      by (unfold by_name, search_tag; simpl; now rewrite andb_true_r).
    change (img_with_nonempty_src (Tag n a cs))
      with (str_eqb n (py "img")
            && match dict_get a (py "src") with
               | Some s => str_truthy s
               | None => false
               end).
    destruct (str_eqb n (py "img")); cbn [andb]; [|exact IH].
    cbn [flat_map]. rewrite IH. cbn [get].
    destruct (dict_get a (py "src")) as [src|] eqn:E; [|reflexivity].
    destruct (str_truthy src); [|reflexivity].
    cbn [map app]. f_equal. unfold src_of. cbn [get]. now rewrite E.
  - replace (truthy (Text c t) && by_name "img" (Text c t)) with false
      by (unfold by_name, search_tag; now rewrite andb_false_r).
    exact IH.
Qed.

Lemma In_firstn {A : Type} (n : nat) (l : list A) (x : A) :
  In x (firstn n l) -> In x l.
Proof.
  intros H. rewrite <- (firstn_skipn n l). apply in_or_app; now left.
Qed.

Lemma extract_image_urls_spec (soup : BeautifulSoup) :
  extract_image_urls soup = firstn 5 (img_srcs soup).
Proof.
  unfold extract_image_urls, find_all, img_srcs.
  rewrite comprehension_img_srcs. reflexivity.
Qed.

Lemma img_with_nonempty_src_inv (el : PageElement) :
  img_with_nonempty_src el = true ->
  tag_name el = Some (py "img") /\
  get el (py "src") = Some (src_of el) /\ src_of el <> [].
Proof.
  destruct el as [n a cs|c t]; simpl; [|discriminate].
  rewrite andb_true_iff, str_eqb_eq. intros [-> H].
  unfold src_of; simpl.
  destruct (dict_get a (py "src")) as [s|]; [|discriminate].
  destruct s; [discriminate|]. repeat split; discriminate.
Qed.

(** C2, as the code has it. The list of image URLs has at most 5
    entries; when the document has at most 5 image elements with a
    non-empty source attribute its length is the number of such
    elements; and it is the first 5 of their sources in document
    order. *)
Theorem image_urls_capped_in_document_order :
  forall (soup : BeautifulSoup) (r : PropertyRecord),
    from_soup soup = Ok r ->
    length (image_urls r) <= 5 /\
    (count_img_with_nonempty_src soup <= 5 ->
     length (image_urls r) = count_img_with_nonempty_src soup) /\
    image_urls r = firstn 5 (img_srcs soup).
Proof.
  intros soup r H. apply from_soup_Ok in H.
  destruct H as (_ & _ & _ & H & _).
  rewrite H, extract_image_urls_spec.
  assert (L : length (img_srcs soup) = count_img_with_nonempty_src soup)
    by (unfold img_srcs; apply length_map).
  rewrite length_firstn, L.
  repeat split; lia.
Qed.

Lemma image_urls_capped_in_document_order_witness :
  exists r, from_soup doc_gallery = Ok r /\
            length (image_urls r) = 2 /\
            image_urls r = [py "a.png"; py "b.png"].
Proof.
  eexists; split; [reflexivity|].
  destruct (image_urls_capped_in_document_order doc_gallery _ eq_refl)
    as (_ & H & E).
  split; [apply H; vm_compute; lia | exact E].
Defined.

(** C2 as stated fails: [<img src="">] has one image element with a
    source attribute, and the list is empty. *)
Lemma image_urls_count_with_src_counterexample :
  exists r, from_soup doc_img_empty_src = Ok r /\
            count_img_with_src doc_img_empty_src = 1 /\
            count_img_with_src doc_img_empty_src <= 5 /\
            length (image_urls r) = 0.
Proof.
  eexists; split; [reflexivity|].
  repeat split. vm_compute. lia.
Qed.

(** C10. An image element whose source is the empty string is skipped
    like one without a source: no entry of the list is the empty string,
    and every entry is the source of an image element of the document. *)
Theorem image_urls_never_empty_string :
  forall (soup : BeautifulSoup) (r : PropertyRecord),
    from_soup soup = Ok r ->
    ~ In [] (image_urls r) /\
    (forall u, In u (image_urls r) ->
       exists img, In img (soup_descendants soup) /\
                   tag_name img = Some (py "img") /\
                   get img (py "src") = Some u) /\
    (forall img, In img (soup_descendants soup) ->
       get img (py "src") = Some [] \/ get img (py "src") = None ->
       img_with_nonempty_src img = false).
Proof.
  intros soup r H. apply from_soup_Ok in H.
  destruct H as (_ & _ & _ & H & _).
  rewrite H, extract_image_urls_spec.
  assert (K : forall u, In u (firstn 5 (img_srcs soup)) ->
              u <> [] /\
              exists img, In img (soup_descendants soup) /\
                          tag_name img = Some (py "img") /\
                          get img (py "src") = Some u).
  { intros u Hu. apply In_firstn in Hu. unfold img_srcs in Hu.
    apply in_map_iff in Hu. destruct Hu as (el & <- & Hel).
    apply filter_In in Hel. destruct Hel as [Hin Hp].
    apply img_with_nonempty_src_inv in Hp.
    destruct Hp as (Hn & Hg & Hne).
    split; [exact Hne|]. exists el; auto. }
  split; [|split].
  - intros Hin. apply K in Hin. destruct Hin as [Hne _]. now apply Hne.
  - intros u Hu. apply K in Hu. tauto.
  - intros img _ Hg. destruct img as [n a cs|c t]; [|reflexivity].
    simpl in *. destruct Hg as [-> | ->]; simpl; apply andb_false_r.
Qed.

Lemma image_urls_never_empty_string_witness :
  exists r, from_soup doc_gallery = Ok r /\ ~ In [] (image_urls r).
Proof.
  eexists; split; [reflexivity|].
  apply (image_urls_never_empty_string doc_gallery _ eq_refl).
Defined.

(* ===================================================================== *)
(** ** Stripping *)
(* ===================================================================== *)

Lemma lstrip_starts_clean (s : str) : starts_clean (lstrip s).
Proof.
  induction s as [|c s IH]; simpl; [exact I|].
  destruct (isspace c) eqn:E; [exact IH | exact E].
Qed.

Lemma lstrip_snoc (s : str) (c : N) :
  isspace c = false -> lstrip (s ++ [c]) = lstrip s ++ [c].
Proof.
  intros Hc. induction s as [|x s IH]; simpl.
  - now rewrite Hc.
  - destruct (isspace x); [exact IH | reflexivity].
Qed.

Lemma rstrip_starts_clean (s : str) :
  starts_clean s -> starts_clean (rstrip s).
Proof.
  unfold rstrip. destruct s as [|c t]; simpl; [intros _; exact I|].
  intros Hc. rewrite lstrip_snoc by exact Hc.
  rewrite rev_app_distr. simpl. exact Hc.
Qed.

Lemma strip_trimmed (s : str) : trimmed (strip s).
Proof.
  unfold trimmed, strip. split.
  - apply rstrip_starts_clean, lstrip_starts_clean.
  - unfold rstrip. rewrite rev_involutive. apply lstrip_starts_clean.
Qed.

Lemma starts_clean_app (a b : str) :
  starts_clean a -> starts_clean b -> starts_clean (a ++ b).
Proof. destruct a; simpl; auto. Qed.

Lemma trimmed_app (a b : str) : trimmed a -> trimmed b -> trimmed (a ++ b).
Proof.
  intros [Ha Ha'] [Hb Hb']. split.
  - now apply starts_clean_app.
  - rewrite rev_app_distr. now apply starts_clean_app.
Qed.

Lemma trimmed_concat (pieces : list str) :
  Forall trimmed pieces -> trimmed (List.concat pieces).
Proof.
  induction 1 as [|p ps Hp _ IH]; simpl.
  - split; exact I.
  - now apply trimmed_app.
Qed.

Lemma stripped_string_trimmed (types : list string_class)
    (el : PageElement) :
  Forall trimmed (stripped_string types el).
Proof.
  destruct el as [n a cs|c t]; simpl; [constructor|].
  destruct (class_in c types); [|constructor].
  destruct (str_truthy (strip t)); constructor;
    [apply strip_trimmed | constructor].
Qed.

Lemma flat_map_Forall {A B : Type} (P : B -> Prop) (f : A -> list B)
    (l : list A) :
  (forall x, Forall P (f x)) -> Forall P (flat_map f l).
Proof.
  intros H. induction l as [|x l IH]; simpl; [constructor|].
  apply Forall_app; split; auto.
Qed.

(** [get_text(strip=True)] never starts or ends with whitespace. *)
Lemma get_text_strip_trimmed (el : PageElement) :
  trimmed (get_text_strip el).
Proof.
  unfold get_text_strip. apply trimmed_concat.
  destruct el as [n a cs|c t]; unfold _all_strings.
  - apply flat_map_Forall. intros x. apply stripped_string_trimmed.
  - apply stripped_string_trimmed.
Qed.

(** On an ordinary text node (or a CDATA section) [get_text(strip=True)]
    is [strip]. *)
Lemma get_text_strip_Text (cls : string_class) (s : str) :
  cls = NavigableString \/ cls = CData ->
  get_text_strip (Text cls s) = strip s.
Proof.
  intros H. unfold get_text_strip, _all_strings, stripped_string.
  replace (class_in cls [NavigableString; CData]) with true
    by (destruct H as [-> | ->]; reflexivity).
  destruct (strip s); simpl; [reflexivity | now rewrite app_nil_r].
Qed.

(** On a string node of another class it is the empty string. *)
Lemma get_text_strip_other (cls : string_class) (s : str) :
  cls <> NavigableString -> cls <> CData ->
  get_text_strip (Text cls s) = [].
Proof.
  intros H1 H2. unfold get_text_strip, _all_strings, stripped_string.
  replace (class_in cls [NavigableString; CData]) with false;
    [reflexivity|].
  destruct cls; try reflexivity; congruence.
Qed.

Lemma lstrip_In (s : str) (c : N) :
  In c s -> isspace c = false -> In c (lstrip s).
Proof.
  intros Hin Hc. induction s as [|x s IH]; simpl in *; [contradiction|].
  destruct (isspace x) eqn:Ex.
  - destruct Hin as [-> | Hin]; [congruence | auto].
  - exact Hin.
Qed.

Lemma strip_In (s : str) (c : N) :
  In c s -> isspace c = false -> In c (strip s).
Proof.
  intros Hin Hc. unfold strip, rstrip.
  apply in_rev. rewrite rev_involutive.
  apply lstrip_In; [|exact Hc].
  apply in_rev. rewrite rev_involutive.
  apply lstrip_In; assumption.
Qed.

Lemma str_in_char (c : N) (s : str) : str_in [c] s = true <-> In c s.
Proof.
  induction s as [|x s IH]; simpl.
  - split; [discriminate | contradiction].
  - rewrite orb_true_iff, IH.
    destruct (N.eqb_spec c x) as [-> | Hne]; simpl.
    + split; intros _; left; [reflexivity | destruct s; reflexivity].
    + split; (intros [H | H]; [congruence | auto]).
Qed.

(** Stripping keeps a dollar sign. *)
Lemma strip_keeps_dollar (s : str) :
  str_in (py "$") s = true -> str_in (py "$") (strip s) = true.
Proof.
  change (py "$") with [36%N]. rewrite !str_in_char.
  intros H. apply strip_In; [exact H | reflexivity].
Qed.

Lemma strip_of_trimmed (s : str) : trimmed s -> strip s = s.
Proof.
  assert (L : forall t, starts_clean t -> lstrip t = t).
  { intros [|c t]; simpl; [reflexivity|]. now intros ->. }
  intros [H1 H2]. unfold strip, rstrip.
  rewrite (L s H1), (L (rev s) H2). apply rev_involutive.
Qed.

(* ===================================================================== *)
(** ** Text fields *)
(* ===================================================================== *)

(** The address and the description are whitespace-trimmed and never
    the empty string; the price is whitespace-trimmed. *)
Lemma text_fields_trimmed (soup : BeautifulSoup) (r : PropertyRecord) :
  from_soup soup = Ok r ->
  (forall s, address r = Some s -> trimmed s /\ s <> []) /\
  (forall s, description r = Some s -> trimmed s /\ s <> []) /\
  (forall s, price r = Some s -> trimmed s).
Proof.
  intros H. apply from_soup_Ok in H.
  destruct H as (Ha & Hp & Hd & _ & _).
  assert (K : forall t s, or_None t = Some s -> trimmed t ->
                          trimmed s /\ s <> []).
  { intros t s E T. destruct (or_None_cases t) as [[_ E'] | [N E']];
      rewrite E' in E; [discriminate|]. injection E as <-. auto. }
  split; [|split].
  - intros s E. rewrite Ha in E. unfold extract_address in E.
    destruct (py_or _ _) as [el|]; [|discriminate].
    destruct (truthy el); [|discriminate].
    apply (K _ _ E), get_text_strip_trimmed.
  - intros s E. unfold extract_description in Hd.
    destruct (py_or _ _) as [el|]; [|congruence].
    destruct (truthy el); [|congruence].
    destruct (tag_name el) as [n|].
    + destruct (str_eqb n (py "meta")).
      * destruct (get el (py "content")) as [c|]; [|discriminate].
        injection Hd as Hd. rewrite <- Hd in E.
        apply (K _ _ E), strip_trimmed.
      * injection Hd as Hd. rewrite <- Hd in E.
        apply (K _ _ E), get_text_strip_trimmed.
    + injection Hd as Hd. rewrite <- Hd in E.
      apply (K _ _ E), get_text_strip_trimmed.
  - intros s E. rewrite Hp in E. unfold extract_price in E.
    destruct (py_or _ _) as [el|]; [|discriminate].
    destruct (truthy el); [|discriminate].
    injection E as <-. apply get_text_strip_trimmed.
Qed.

(** [<div data-testid="address"> 123 Main St </div>] yields the address
    ["123 Main St"]. *)
Example address_is_trimmed :
  exists r, from_soup doc_address = Ok r /\
            address r = Some (py "123 Main St").
Proof. eexists; split; reflexivity. Qed.

(** With markup inside the matched element every text piece is
    stripped and the pieces are joined without a separator. *)
Example address_pieces_are_stripped :
  exists r, from_soup doc_address_nested = Ok r /\
            address r = Some (py "12MainSt").
Proof. eexists; split; reflexivity. Qed.

(** C4. The price misses the normalisation the address and the
    description have: for [<span data-testid="price"> </span>] the
    matched text is whitespace only and the price is the empty string,
    not absent. *)
Theorem blank_price_is_empty_string :
  exists r, from_soup doc_blank_price = Ok r /\
            find (by_testid "price") doc_blank_price =
              Some (Tag (py "span") [(py "data-testid", py "price")]
                        [Text NavigableString (py " ")]) /\
            price r = Some [] /\ price r <> None.
Proof.
  eexists; split; [reflexivity|]. repeat split. discriminate.
Qed.

(** The strainers of [from_html] select what the specification
    describes. *)
Lemma by_testid_has_testid (value : string) (x : PageElement) :
  str_truthy (py value) = true ->
  truthy x && by_testid value x = has_testid value x.
Proof.
  intros Hv. destruct x as [n a cs|c t]; [|apply andb_false_r].
  unfold by_testid, search_tag, has_testid, _matches. simpl.
  rewrite andb_true_r.
  destruct (dict_get a (py "data-testid")); [reflexivity|].
  now rewrite Hv.
Qed.


Lemma str_in_existsb (c : N) (s : str) :
  str_in [c] s = existsb (N.eqb c) s.
Proof.
  induction s as [|x s IH]; simpl; [reflexivity|].
  rewrite IH. f_equal. destruct s; apply andb_true_r.
Qed.

Lemma has_dollar_is (x : PageElement) :
  truthy x && has_dollar x = is_dollar_string x.
Proof.
  destruct x as [n a cs|c t]; [reflexivity|].
  unfold has_dollar, search_string, is_dollar_string.
  change (py "$") with [36%N]. rewrite str_in_existsb.
  destruct t; reflexivity.
Qed.

Lemma find_first_in_document (strainer p : PageElement -> bool)
    (soup : BeautifulSoup) (el : PageElement) :
  (forall x, truthy x && strainer x = p x) ->
  first_in_document p soup el ->
  find strainer soup = Some el.
Proof.
  intros E (before & after & Hl & Hp & Hb). unfold find. rewrite Hl.
  clear Hl. induction before as [|x before IH]; simpl.
  - now rewrite E, Hp.
  - rewrite E, (Hb x (or_introl eq_refl)). apply IH.
    intros y Hy. apply Hb. now right.
Qed.

Lemma find_none_in_document (strainer p : PageElement -> bool)
    (soup : BeautifulSoup) :
  (forall x, truthy x && strainer x = p x) ->
  none_in_document p soup ->
  find strainer soup = None.
Proof.
  intros E H. apply find_None_intro. intros x Hx. rewrite E. now apply H.
Qed.

(** C5. On [<!-- $ per month --><p>Listed at $450,000</p>] no element
    carries the price marker and the first string node with a dollar
    sign is the comment; [get_text(strip=True)] gives nothing for it
    and line 81 has no [or None], so the price is the empty string: not
    the text of a node containing "$", and not absent either. *)
Theorem price_dollar_in_comment_is_empty_string :
  exists r, from_soup doc_comment_then_listed = Ok r /\
            find (by_testid "price") doc_comment_then_listed = None /\
            find has_dollar doc_comment_then_listed =
              Some (Text Comment (py " $ per month ")) /\
            price r = Some [] /\
            price r <> Some (strip (py " $ per month ")) /\
            price r <> Some (py "Listed at $450,000") /\
            price r <> None /\
            str_in (py "$") [] = false.
Proof.
  eexists; split; [reflexivity|]. repeat split; discriminate.
Qed.



(* ===================================================================== *)
(** ** Fetch failures *)
(* ===================================================================== *)

(** [fetch_listing_html] issues one request and raises on a failing
    outcome. *)
Lemma fetch_listing_html_fails network self listing_url w :
  fetch_fails (network (request_for listing_url)) ->
  fetch_listing_html network self listing_url w =
  (Raise (fetch_exception (network (request_for listing_url))),
   {| requests_sent := requests_sent w ++ [request_for listing_url];
      files := files w;
      stdout := stdout w |}).
Proof.
  unfold fetch_listing_html, io_bind, send. fold (request_for listing_url).
  destruct (network (request_for listing_url)) as [| |status text]; simpl;
    try reflexivity.
  intros [H1 H2]. unfold io_lift, raise_for_status.
  replace ((400 <=? status) && (status <? 600))%Z with true; [reflexivity|].
  symmetry. apply andb_true_iff. split; [apply Z.leb_le | apply Z.ltb_lt]; lia.
Qed.

(** C3, as the code has it. When the fetch fails (no connection, a
    timeout, or a 4xx or 5xx status such as 404), [main] ends with the
    very exception the fetch raised, so the process exits with a
    non-zero status; one request was issued and no more; no file was
    written and nothing was printed. *)
Theorem fetch_failure_aborts_run :
  forall html_parser network getenv now file_write stdout_write args w,
    fetch_fails (network (request_for (url args))) ->
    exists e w',
      main html_parser network getenv now file_write stdout_write args w
        = (Raise e, w') /\
      e = fetch_exception (network (request_for (url args))) /\
      (forall self,
          fetch_listing_html network self (url args) w = (Raise e, w')) /\
      exit_status (Raise e) <> 0%Z /\
      files w' = files w /\
      stdout w' = stdout w /\
      requests_sent w' = requests_sent w ++ [request_for (url args)].
Proof.
  intros p net env now fw sw args w H.
  eexists; eexists. split; [|split; [reflexivity|split]].
  - unfold main, extract, io_bind.
    rewrite (fetch_listing_html_fails _ _ _ _ H). reflexivity.
  - intros self. apply fetch_listing_html_fails, H.
  - simpl. repeat split. discriminate.
Qed.

Lemma fetch_failure_aborts_run_witness :
  exists w',
    main parser_of_empty_body network_404 no_env now0 file_write_ok
         stdout_write_ok args0 world0
      = (Raise (HTTPError 404), w') /\
    files w' = [].
Proof.
  destruct (fetch_failure_aborts_run parser_of_empty_body network_404
              no_env now0 file_write_ok stdout_write_ok args0 world0)
    as (e & w' & Hm & He & _ & _ & Hf & _).
  - simpl. lia.
  - exists w'. split; [rewrite Hm, He; reflexivity | exact Hf].
Defined.

(** C3 as stated fails for a status that is neither 2xx nor an error for
    [raise_for_status]: on a 304 answer the run goes on, writes the
    output file and exits with status 0. *)
Lemma status_304_counterexample :
  exists payload w',
    ~ (200 <= 304 < 300)%Z /\
    main parser_of_empty_body network_304 no_env now0 file_write_ok
         stdout_write_ok args0 world0
      = (Ok 0%Z, w') /\
    exit_status (Ok 0%Z) = 0%Z /\
    files w' = [(py "output.json", Whole payload)] /\
    requests_sent w' = [request_for (url args0)].
Proof.
  eexists; eexists. split; [lia|]. split; [vm_compute; reflexivity|].
  repeat split.
Qed.

(* ===================================================================== *)
(** ** The fetcher, the orchestrator and the CLI on every outcome *)
(* ===================================================================== *)

(** [fetch_listing_html] on every outcome of the request. *)
Lemma fetch_listing_html_eq network self listing_url w :
  fetch_listing_html network self listing_url w =
  (match network (request_for listing_url) with
   | ConnectionFailed => Raise ConnectionError
   | TimedOut => Raise Timeout
   | Response status_code text =>
       if ((400 <=? status_code) && (status_code <? 600))%Z
       then Raise (HTTPError status_code)
       else Ok text
   end,
   after_request listing_url w).
Proof.
  unfold fetch_listing_html, io_bind, send, after_request.
  fold (request_for listing_url).
  destruct (network (request_for listing_url)) as [| |status text]; simpl;
    try reflexivity.
  unfold io_lift, raise_for_status, io_ret.
  destruct ((400 <=? status) && (status <? 600))%Z; reflexivity.
Qed.

Lemma error_range_spec (status_code : Z) :
  ((400 <=? status_code) && (status_code <? 600))%Z = true <->
  (400 <= status_code < 600)%Z.
Proof. rewrite andb_true_iff, Z.leb_le, Z.ltb_lt. tauto. Qed.

(** X1. A fetch returns a text exactly when the server answered with a
    status outside 400-599, and the text is then the body of that
    answer, unchanged. Whatever the outcome, the call issues one
    request, for the URL it was given with the fixed user agent and a
    timeout of 30, and touches neither the files nor the output. *)
Theorem fetch_listing_html_returns_body_iff :
  forall network self listing_url w,
    (forall text,
        fst (fetch_listing_html network self listing_url w) = Ok text <->
        exists status_code,
          network (request_for listing_url) = Response status_code text /\
          ~ (400 <= status_code < 600)%Z) /\
    snd (fetch_listing_html network self listing_url w) =
      {| requests_sent :=
           requests_sent w ++ [{| req_url := listing_url;
                                  req_user_agent := user_agent;
                                  req_timeout := 30 |}];
         files := files w;
         stdout := stdout w |}.
Proof.
  intros net self u w. rewrite fetch_listing_html_eq. simpl.
  split; [|reflexivity]. intros text.
  destruct (net (request_for u)) as [| |status body].
  - split; [discriminate | intros (s & H & _); discriminate].
  - split; [discriminate | intros (s & H & _); discriminate].
  - destruct ((400 <=? status) && (status <? 600))%Z eqn:E.
    + apply error_range_spec in E.
      split; [discriminate|]. intros (s & H & N).
      injection H as <- _. contradiction.
    + split.
      * intros H. injection H as <-. exists status. split; [reflexivity|].
        intros R. apply error_range_spec in R. congruence.
      * intros (s & H & _). injection H as _ <-. reflexivity.
Qed.

(** [extract] on every outcome. *)
Lemma extract_eq html_parser network self listing_url w :
  extract html_parser network self listing_url w =
  (match fst (fetch_listing_html network self listing_url w) with
   | Ok html_text => from_html html_parser html_text
   | Raise e => Raise e
   end,
   after_request listing_url w).
Proof.
  unfold extract, io_bind. rewrite fetch_listing_html_eq. simpl.
  destruct (network (request_for listing_url)) as [| |status body];
    try reflexivity.
  destruct ((400 <=? status) && (status <? 600))%Z; [reflexivity|].
  unfold io_lift, io_ret, validate_schema.
  destruct (from_html html_parser body); reflexivity.
Qed.

(** X2. [extract] never writes a file and never prints: whether it
    returns a record or raises, the files and the output are as before
    and the request log has grown by exactly the one request of the
    fetch. *)
Theorem extract_only_sends_one_request :
  forall html_parser network self listing_url w res w',
    extract html_parser network self listing_url w = (res, w') ->
    files w' = files w /\
    stdout w' = stdout w /\
    requests_sent w' = requests_sent w ++ [request_for listing_url].
Proof.
  intros p net self u w res w' H. rewrite extract_eq in H.
  injection H as _ <-. repeat split.
Qed.

Lemma extract_only_sends_one_request_witness :
  files (snd (extract parser_of_examples network_cozy
                      (mkAgent None None None None) (url args0) world0))
    = [] /\
  length (requests_sent
            (snd (extract parser_of_examples network_cozy
                          (mkAgent None None None None) (url args0)
                          world0))) = 1.
Proof.
  destruct (extract_only_sends_one_request parser_of_examples network_cozy
              (mkAgent None None None None) (url args0) world0 _ _
              (surjective_pairing _)) as (Hf & _ & Hr).
  split; [exact Hf | rewrite Hr; reflexivity].
Defined.

(** [main] on every outcome. *)
Lemma main_eq html_parser network getenv now file_write stdout_write args w :
  main html_parser network getenv now file_write stdout_write args w =
  match fst (fetch_listing_html network (mkAgent None None None None)
                                (url args) w) with
  | Ok html_text =>
      match from_html html_parser html_text with
      | Ok record =>
          let payload := payload_of now args record in
          let sent := requests_sent w ++ [request_for (url args)] in
          match file_write (output args) payload with
          | Completes =>
              let written := (output args, Whole payload) :: files w in
              match stdout_write payload with
              | Completes =>
                  (Ok 0%Z,
                   {| requests_sent := sent; files := written;
                      stdout := stdout w ++ [Whole payload] |})
              | RaisesBefore e =>
                  (Raise e,
                   {| requests_sent := sent; files := written;
                      stdout := stdout w |})
              | RaisesDuring e =>
                  (Raise e,
                   {| requests_sent := sent; files := written;
                      stdout := stdout w ++ [Interrupted payload] |})
              end
          | RaisesBefore e => (Raise e, after_request (url args) w)
          | RaisesDuring e =>
              (Raise e,
               {| requests_sent := sent;
                  files := (output args, Interrupted payload) :: files w;
                  stdout := stdout w |})
          end
      | Raise e => (Raise e, after_request (url args) w)
      end
  | Raise e => (Raise e, after_request (url args) w)
  end.
Proof.
  unfold main, io_bind. rewrite extract_eq.
  rewrite !fetch_listing_html_eq. simpl.
  destruct (network (request_for (url args))) as [| |status body];
    try reflexivity.
  destruct ((400 <=? status) && (status <? 600))%Z; [reflexivity|].
  destruct (from_html html_parser body) as [record|e]; [|reflexivity].
  fold (payload_of now args record). unfold write_json, print_json.
  destruct (file_write (output args) (payload_of now args record));
    try reflexivity.
  simpl. destruct (stdout_write (payload_of now args record));
    reflexivity.
Qed.

Lemma cons_neq_self {A : Type} (x : A) (l : list A) : x :: l <> l.
Proof.
  intros H. apply (f_equal (@length A)) in H. simpl in H. lia.
Qed.

Lemma snoc_neq_self {A : Type} (x : A) (l : list A) : l ++ [x] <> l.
Proof.
  intros H. apply (f_equal (@length A)) in H.
  rewrite length_app in H. simpl in H. lia.
Qed.

(** X3. A successful run. When the server answers with a status outside
    400-599, the extractor returns a record, and both the write to the
    output path and the print complete, [main] returns 0 after one
    request; the file at the output path and standard output hold one
    and the same payload: the record as data, the URL as source_url,
    "1.0" as schema_version and the clock's text followed by "Z" as
    extracted_at. *)
Theorem main_success :
  forall html_parser network getenv now file_write stdout_write args w
         status_code html_text record,
    network (request_for (url args)) = Response status_code html_text ->
    ~ (400 <= status_code < 600)%Z ->
    from_html html_parser html_text = Ok record ->
    file_write (output args) (payload_of now args record) = Completes ->
    stdout_write (payload_of now args record) = Completes ->
    exists payload,
      main html_parser network getenv now file_write stdout_write args w =
        (Ok 0%Z,
         {| requests_sent := requests_sent w ++ [request_for (url args)];
            files := (output args, Whole payload) :: files w;
            stdout := stdout w ++ [Whole payload] |}) /\
      data payload = record /\
      source_url (metadata payload) = url args /\
      schema_version (metadata payload) = py "1.0" /\
      extracted_at (metadata payload) = now ++ py "Z".
Proof.
  intros p net env now fw sw args w status body r Hn Hs Hr Hf Hp.
  exists (payload_of now args r).
  split; [|repeat split].
  rewrite main_eq, fetch_listing_html_eq, Hn. simpl.
  destruct ((400 <=? status) && (status <? 600))%Z eqn:E;
    [apply error_range_spec in E; contradiction|].
  now rewrite Hr, Hf, Hp.
Qed.

Lemma main_success_witness :
  exists payload w',
    main parser_of_examples network_cozy no_env now0 file_write_ok
         stdout_write_ok args0 world0 = (Ok 0%Z, w') /\
    files w' = [(py "output.json", Whole payload)] /\
    description (data payload) = Some (py "Cozy 3BR home").
Proof.
  destruct (main_success parser_of_examples network_cozy no_env now0
              file_write_ok stdout_write_ok args0 world0 200%Z html_cozy
              {| address := None; price := None; bedrooms := None;
                 bathrooms := None; square_feet := None; lot_size := None;
                 year_built := None; property_type := None;
                 listing_agent := None; days_on_market := None;
                 mls_number := None;
                 description := Some (py "Cozy 3BR home");
                 image_urls := []; neighborhood := None |})
    as (payload & Hm & Hd & _).
  - reflexivity.
  - lia.
  - reflexivity.
  - reflexivity.
  - reflexivity.
  - exists payload. eexists. split; [exact Hm|].
    split; [reflexivity | now rewrite Hd].
Defined.

(** X4. An exception of the extractor aborts the run like a failed
    fetch. When the page was fetched and [from_html] raises, [main] ends
    with that exception, so with exit status 1; the request was issued,
    no file is written and nothing is printed. *)
Theorem main_extractor_failure :
  forall html_parser network getenv now file_write stdout_write args w
         status_code html_text e,
    network (request_for (url args)) = Response status_code html_text ->
    ~ (400 <= status_code < 600)%Z ->
    from_html html_parser html_text = Raise e ->
    exists w',
      main html_parser network getenv now file_write stdout_write args w
        = (Raise e, w') /\
      exit_status (Raise e) = 1%Z /\
      files w' = files w /\
      stdout w' = stdout w /\
      requests_sent w' = requests_sent w ++ [request_for (url args)].
Proof.
  intros p net env now fw sw args w status body e Hn Hs Hr.
  exists (after_request (url args) w).
  split; [|repeat split].
  rewrite main_eq, fetch_listing_html_eq, Hn. simpl.
  destruct ((400 <=? status) && (status <? 600))%Z eqn:E;
    [apply error_range_spec in E; contradiction|].
  now rewrite Hr.
Qed.

Lemma main_extractor_failure_witness :
  exists w',
    main parser_of_examples network_meta_without_content no_env now0
         file_write_ok stdout_write_ok args0 world0
      = (Raise AttributeError, w') /\
    files w' = [].
Proof.
  destruct (main_extractor_failure parser_of_examples
              network_meta_without_content no_env now0 file_write_ok
              stdout_write_ok args0 world0
              200%Z html_meta_without_content AttributeError)
    as (w' & Hm & _ & Hf & _).
  - reflexivity.
  - lia.
  - reflexivity.
  - exists w'. split; [exact Hm | exact Hf].
Defined.

(** X5. Once the arguments are parsed, a run of [main] issues exactly
    one request and either returns 0 or raises, never another status.
    It changes the files by at most one write, to the output path. It
    returns 0 exactly when the whole payload was written to the output
    path and the whole payload was printed; and it prints only after
    the output file was written completely. *)
Theorem main_writes_then_prints :
  forall html_parser network getenv now file_write stdout_write args w
         res w',
    main html_parser network getenv now file_write stdout_write args w
      = (res, w') ->
    requests_sent w' = requests_sent w ++ [request_for (url args)] /\
    (res = Ok 0%Z \/ exists e, res = Raise e) /\
    (files w' = files w \/
     exists written, files w' = (output args, written) :: files w) /\
    (res = Ok 0%Z <->
     exists payload,
       files w' = (output args, Whole payload) :: files w /\
       stdout w' = stdout w ++ [Whole payload]) /\
    (stdout w' <> stdout w ->
     exists payload, files w' = (output args, Whole payload) :: files w).
Proof.
  intros p net env now fw sw args w res w' H. rewrite main_eq in H.
  assert (Nothing : forall e,
            (res, w') = (Raise e, after_request (url args) w) ->
            requests_sent w' = requests_sent w ++ [request_for (url args)] /\
            (res = Ok 0%Z \/ exists e, res = Raise e) /\
            (files w' = files w \/
             exists written, files w' = (output args, written) :: files w) /\
            (res = Ok 0%Z <->
             exists payload,
               files w' = (output args, Whole payload) :: files w /\
               stdout w' = stdout w ++ [Whole payload]) /\
            (stdout w' <> stdout w ->
             exists payload,
               files w' = (output args, Whole payload) :: files w)).
  { intros e E. injection E as -> ->. simpl.
    split; [reflexivity|]. split; [right; now exists e|].
    split; [now left|]. split.
    - split; [discriminate|]. intros (pl & _ & Hs).
      symmetry in Hs. now apply snoc_neq_self in Hs.
    - intros N. now destruct N. }
  destruct (fst (fetch_listing_html net _ (url args) w)) as [text|e];
    [|symmetry in H; exact (Nothing e H)].
  destruct (from_html p text) as [r|e];
    [|symmetry in H; exact (Nothing e H)].
  cbv zeta in H.
  destruct (fw (output args) (payload_of now args r)) as [|e|e];
    [| symmetry in H; exact (Nothing e H) |].
  - destruct (sw (payload_of now args r)) as [|e|e];
      injection H as <- <-; simpl.
    + split; [reflexivity|]. split; [now left|].
      split; [right; eexists; reflexivity|]. split.
      * split; [|reflexivity]. intros _. eexists. split; reflexivity.
      * intros _. eexists. reflexivity.
    + split; [reflexivity|]. split; [right; now exists e|].
      split; [right; eexists; reflexivity|]. split.
      * split; [discriminate|]. intros (pl & _ & Hs).
        symmetry in Hs. now apply snoc_neq_self in Hs.
      * intros N. now destruct N.
    + split; [reflexivity|]. split; [right; now exists e|].
      split; [right; eexists; reflexivity|]. split.
      * split; [discriminate|]. intros (pl & _ & Hs).
        apply app_inj_tail in Hs. destruct Hs as [_ Hs]. discriminate.
      * intros _. eexists. reflexivity.
  - injection H as <- <-; simpl.
    split; [reflexivity|]. split; [right; now exists e|].
    split; [right; eexists; reflexivity|]. split.
    + split; [discriminate|]. intros (pl & Hf & _). discriminate.
    + intros N. now destruct N.
Qed.

Lemma main_writes_then_prints_witness :
  exists payload,
    files (snd (main parser_of_examples network_cozy no_env now0
                     file_write_ok stdout_write_ok args0 world0))
      = [(py "output.json", Whole payload)].
Proof.
  destruct (main_writes_then_prints parser_of_examples network_cozy no_env
              now0 file_write_ok stdout_write_ok args0 world0 _ _
              (surjective_pairing _)) as (_ & _ & _ & _ & H).
  apply H. vm_compute. intros E. discriminate E.
Defined.

(** X6. Failures of the output step. When the page was fetched and the
    record extracted: if opening the output file raises, [main] ends
    with that exception having written nothing and printed nothing; and
    if the file is written but printing raises before any output,
    [main] ends with that exception, with exit status 1, although the
    output path already holds the whole payload. *)
Theorem main_output_failures :
  forall html_parser network getenv now file_write stdout_write args w
         status_code html_text record,
    network (request_for (url args)) = Response status_code html_text ->
    ~ (400 <= status_code < 600)%Z ->
    from_html html_parser html_text = Ok record ->
    (forall e,
        file_write (output args) (payload_of now args record)
          = RaisesBefore e ->
        exists w',
          main html_parser network getenv now file_write stdout_write
               args w = (Raise e, w') /\
          files w' = files w /\ stdout w' = stdout w) /\
    (forall e,
        file_write (output args) (payload_of now args record)
          = Completes ->
        stdout_write (payload_of now args record) = RaisesBefore e ->
        exists w' payload,
          main html_parser network getenv now file_write stdout_write
               args w = (Raise e, w') /\
          exit_status (Raise e) = 1%Z /\
          data payload = record /\
          files w' = (output args, Whole payload) :: files w /\
          stdout w' = stdout w).
Proof.
  intros p net env now fw sw args w status body r Hn Hs Hr.
  assert (M := main_eq p net env now fw sw args w).
  rewrite fetch_listing_html_eq, Hn in M. simpl in M.
  destruct ((400 <=? status) && (status <? 600))%Z eqn:E;
    [apply error_range_spec in E; contradiction|].
  rewrite Hr in M. cbv zeta in M. split.
  - intros e Hf. rewrite Hf in M. eexists. split; [exact M|].
    split; reflexivity.
  - intros e Hf Hp. rewrite Hf, Hp in M.
    eexists; exists (payload_of now args r). split; [exact M|].
    repeat split.
Qed.

Lemma main_output_failures_witness :
  exists w' payload,
    main parser_of_examples network_cozy no_env now0 file_write_ok
         stdout_write_unencodable args0 world0
      = (Raise UnicodeEncodeError, w') /\
    files w' = [(py "output.json", Whole payload)] /\
    stdout w' = [].
Proof.
  destruct (main_output_failures parser_of_examples network_cozy no_env
              now0 file_write_ok stdout_write_unencodable args0 world0
              200%Z html_cozy
              {| address := None; price := None; bedrooms := None;
                 bathrooms := None; square_feet := None; lot_size := None;
                 year_built := None; property_type := None;
                 listing_agent := None; days_on_market := None;
                 mls_number := None;
                 description := Some (py "Cozy 3BR home");
                 image_urls := []; neighborhood := None |}
              eq_refl) as (_ & H).
  - lia.
  - reflexivity.
  - destruct (H UnicodeEncodeError eq_refl eq_refl)
      as (w' & payload & Hm & _ & _ & Hf & Ho).
    exists w', payload. split; [exact Hm|]. split; [exact Hf | exact Ho].
Defined.

(* ===================================================================== *)
(** ** The extractor, field by field *)
(* ===================================================================== *)

Lemma by_name_inv (name : string) (el : PageElement) :
  by_name name el = true -> tag_name el = Some (py name).
Proof.
  destruct el as [n a cs|c t]; simpl; [|discriminate].
  rewrite andb_true_r, str_eqb_eq. now intros ->.
Qed.

Lemma soup_descendants_app (soup1 soup2 : BeautifulSoup) :
  soup_descendants (soup1 ++ soup2) =
  soup_descendants soup1 ++ soup_descendants soup2.
Proof. apply flat_map_app. Qed.

Lemma img_srcs_app (soup1 soup2 : BeautifulSoup) :
  img_srcs (soup1 ++ soup2) = img_srcs soup1 ++ img_srcs soup2.
Proof.
  unfold img_srcs. now rewrite soup_descendants_app, filter_app, map_app.
Qed.

(** X7. Address extraction is first-match-wins. The first element
    carrying the address marker gives the address, also when an
    [<address>] element comes earlier in the document; without a marked
    element the first [<address>] element gives it; without either the
    address is absent. What an element gives is its stripped text, or
    nothing when that is empty. *)
Theorem address_first_match_wins :
  forall (soup : BeautifulSoup) (r : PropertyRecord),
    from_soup soup = Ok r ->
    (forall el, find (by_testid "address") soup = Some el ->
                address r = or_None (get_text_strip el)) /\
    (forall el, find (by_testid "address") soup = None ->
                find (by_name "address") soup = Some el ->
                tag_name el = Some (py "address") /\
                address r = or_None (get_text_strip el)) /\
    (find (by_testid "address") soup = None ->
     find (by_name "address") soup = None ->
     address r = None).
Proof.
  intros soup r H. apply from_soup_Ok in H.
  destruct H as (Ha & _). rewrite Ha. unfold extract_address.
  split; [|split].
  - intros el E. rewrite (py_or_find_l _ _ _ _ E).
    now rewrite (find_truthy _ _ _ E).
  - intros el E1 E2. rewrite E1. simpl. rewrite E2.
    apply find_first in E2. destruct E2 as (T & M & _).
    rewrite T. split; [now apply by_name_inv | reflexivity].
  - intros E1 E2. rewrite E1, E2. reflexivity.
Qed.

Lemma address_first_match_wins_witness :
  exists r, from_soup doc_two_addresses = Ok r /\
            address r = or_None (py "2 Oak Ave").
Proof.
  eexists; split; [reflexivity|].
  destruct (address_first_match_wins doc_two_addresses _ eq_refl)
    as (H & _).
  exact (H (Tag (py "div") [(py "data-testid", py "address")]
                [Text NavigableString (py "2 Oak Ave")]) eq_refl).
Defined.

(** X8. The price is absent exactly when no element carries the price
    marker and no string node of the document, of whatever class,
    contains a dollar sign. *)
Theorem price_absent_iff :
  forall (soup : BeautifulSoup) (r : PropertyRecord),
    from_soup soup = Ok r ->
    (price r = None <->
     find (by_testid "price") soup = None /\
     find has_dollar soup = None).
Proof.
  intros soup r H. apply from_soup_Ok in H.
  destruct H as (_ & Hp & _). rewrite Hp. unfold extract_price.
  destruct (find (by_testid "price") soup) as [el|] eqn:E1.
  - rewrite <- E1, (py_or_find_l _ _ _ _ E1), (find_truthy _ _ _ E1).
    split; [discriminate | intros [H _]; congruence].
  - simpl. destruct (find has_dollar soup) as [el|] eqn:E2.
    + rewrite (find_truthy _ _ _ E2).
      split; [discriminate | intros [_ H]; discriminate].
    + split; auto.
Qed.

Lemma price_absent_iff_witness :
  exists r, from_soup doc_cozy = Ok r /\ price r = None.
Proof.
  eexists; split; [reflexivity|].
  apply (price_absent_iff doc_cozy _ eq_refl). split; reflexivity.
Defined.

(** X9. When no element carries the price marker and the first string
    node containing a dollar sign is not an ordinary text node or a
    CDATA section (a comment, a doctype, the text of a script or style
    element), the price is the empty string. *)
Theorem price_empty_for_other_string_classes :
  forall (soup : BeautifulSoup) (r : PropertyRecord) cls s,
    from_soup soup = Ok r ->
    find (by_testid "price") soup = None ->
    find has_dollar soup = Some (Text cls s) ->
    cls <> NavigableString -> cls <> CData ->
    price r = Some [].
Proof.
  intros soup r cls s H E1 E2 N1 N2. apply from_soup_Ok in H.
  destruct H as (_ & Hp & _). rewrite Hp. unfold extract_price.
  rewrite E1, E2. simpl.
  apply find_truthy in E2. simpl in E2. rewrite E2.
  now rewrite get_text_strip_other.
Qed.

Lemma price_empty_for_other_string_classes_witness :
  exists r, from_soup doc_comment_then_listed = Ok r /\ price r = Some [].
Proof.
  eexists; split; [reflexivity|].
  apply (price_empty_for_other_string_classes doc_comment_then_listed _
           Comment (py " $ per month ") eq_refl eq_refl eq_refl);
    discriminate.
Defined.




(** X11. Every text field of a returned record is a fixed point of
    [strip]: stripping the address, the price or the description again
    changes nothing. The address and the description are moreover never
    the empty string. *)
Theorem text_fields_fixed_by_strip :
  forall (soup : BeautifulSoup) (r : PropertyRecord),
    from_soup soup = Ok r ->
    (forall s, address r = Some s -> strip s = s /\ s <> []) /\
    (forall s, description r = Some s -> strip s = s /\ s <> []) /\
    (forall s, price r = Some s -> strip s = s).
Proof.
  intros soup r H.
  destruct (text_fields_trimmed soup r H) as (Ha & Hd & Hp).
  split; [|split].
  - intros s E. destruct (Ha s E). split; [now apply strip_of_trimmed|auto].
  - intros s E. destruct (Hd s E). split; [now apply strip_of_trimmed|auto].
  - intros s E. now apply strip_of_trimmed, Hp.
Qed.

Lemma text_fields_fixed_by_strip_witness :
  strip (py "123 Main St") = py "123 Main St" /\ py "123 Main St" <> [].
Proof.
  destruct (text_fields_fixed_by_strip doc_address _ eq_refl) as (H & _).
  exact (H (py "123 Main St") eq_refl).
Defined.

(** X12. A document without any element and without a dollar sign, an
    empty page or plain text for instance, gives the record of defaults:
    every field absent and no image URL. *)
Theorem document_without_elements_gives_defaults :
  forall (soup : BeautifulSoup),
    (forall x, In x (soup_descendants soup) -> text_without_dollar x) ->
    from_soup soup = Ok default_record.
Proof.
  intros soup H.
  assert (T : forall name attrs x, In x (soup_descendants soup) ->
                truthy x && search_tag name attrs x = false).
  { intros name attrs x Hx. destruct (H x Hx) as (c & s & -> & _).
    apply andb_false_r. }
  assert (D : forall x, In x (soup_descendants soup) ->
                truthy x && has_dollar x = false).
  { intros x Hx. destruct (H x Hx) as (c & s & -> & Hs).
    simpl. rewrite Hs. apply andb_false_r. }
  unfold from_soup, extract_address, extract_price, extract_description,
    extract_image_urls.
  rewrite (find_None_intro (by_testid "address") soup (T _ _)).
  rewrite (find_None_intro (by_name "address") soup (T _ _)).
  rewrite (find_None_intro (by_testid "price") soup (T _ _)).
  rewrite (find_None_intro has_dollar soup D).
  rewrite (find_None_intro (by_testid "home-description-text") soup (T _ _)).
  rewrite (find_None_intro meta_description soup (T _ _)).
  rewrite (find_all_nil_intro (by_name "img") soup (T _ _)).
  reflexivity.
Qed.

Lemma document_without_elements_gives_defaults_witness :
  from_soup doc_plain_text = Ok default_record.
Proof.
  apply document_without_elements_gives_defaults.
  intros x [<- | []]. eexists; eexists. split; reflexivity.
Defined.

(** X13. Only the first five images count. Once a document has five
    image elements with a non-empty source, the list has exactly five
    entries and whatever follows in the document leaves it unchanged. *)
Theorem only_first_five_images_count :
  forall (soup1 soup2 : BeautifulSoup) (r1 r2 : PropertyRecord),
    from_soup soup1 = Ok r1 ->
    from_soup (soup1 ++ soup2) = Ok r2 ->
    5 <= count_img_with_nonempty_src soup1 ->
    length (image_urls r1) = 5 /\ image_urls r2 = image_urls r1.
Proof.
  intros soup1 soup2 r1 r2 H1 H2 Hc.
  apply from_soup_Ok in H1. destruct H1 as (_ & _ & _ & H1 & _).
  apply from_soup_Ok in H2. destruct H2 as (_ & _ & _ & H2 & _).
  rewrite H1, H2, !extract_image_urls_spec, img_srcs_app.
  assert (L : length (img_srcs soup1) = count_img_with_nonempty_src soup1)
    by (unfold img_srcs; apply length_map).
  split.
  - rewrite length_firstn. lia.
  - rewrite firstn_app.
    replace (5 - length (img_srcs soup1)) with 0 by lia.
    apply app_nil_r.
Qed.

Lemma only_first_five_images_count_witness :
  exists r1 r2,
    from_soup doc_six_images = Ok r1 /\
    from_soup (doc_six_images ++ doc_gallery) = Ok r2 /\
    image_urls r2 = image_urls r1.
Proof.
  eexists; eexists. split; [reflexivity|]. split; [reflexivity|].
  apply (only_first_five_images_count doc_six_images doc_gallery _ _
           eq_refl eq_refl).
  vm_compute. lia.
Defined.

Lemma fetch_listing_html_returns_body_iff_witness :
  fst (fetch_listing_html network_cozy (mkAgent None None None None)
                          (url args0) world0) = Ok html_cozy.
Proof.
  apply (proj2 (proj1 (fetch_listing_html_returns_body_iff network_cozy
                         (mkAgent None None None None) (url args0) world0)
                      html_cozy)).
  exists 200%Z. split; [reflexivity | lia].
Defined.

(** X14. Price extraction on its good paths. In the record [from_html]
    returns: when the document has an element carrying the price marker,
    the price is the stripped text of the first such element in
    document order, also when a text with a dollar sign comes earlier;
    otherwise, when the first string node with a dollar sign is an
    ordinary text node or a CDATA section, the price is its text with
    the surrounding whitespace stripped and nothing else changed,
    dollar sign included; and when the document has neither, the price
    is absent. *)
Theorem price_first_match_wins :
  (forall (soup : BeautifulSoup) (r : PropertyRecord),
      from_soup soup = Ok r ->
      (forall el,
          first_in_document (has_testid "price") soup el ->
          price r = Some (get_text_strip el)) /\
      (none_in_document (has_testid "price") soup ->
       forall cls s,
         first_in_document is_dollar_string soup (Text cls s) ->
         cls = NavigableString \/ cls = CData ->
         price r = Some (strip s) /\
         str_in (py "$") (strip s) = true /\
         (trimmed s -> price r = Some s)) /\
      (none_in_document (has_testid "price") soup ->
       none_in_document is_dollar_string soup ->
       price r = None)) /\
  (exists r, from_soup doc_price_after_text = Ok r /\
             price r = Some (py "$450,000")) /\
  (exists r, from_soup doc_two_dollar_texts = Ok r /\
             price r = Some (py "Listed at $450,000")) /\
  (exists r, from_soup doc_cozy = Ok r /\ price r = None).
Proof.
  split; [|repeat split; eexists; repeat split; reflexivity].
  intros soup r H. apply from_soup_Ok in H.
  destruct H as (_ & Hp & _). rewrite Hp. unfold extract_price.
  assert (Hv : str_truthy (py "price") = true) by reflexivity.
  split; [|split].
  - intros el F.
    apply (find_first_in_document _ _ _ _
             (fun x => by_testid_has_testid _ x Hv)) in F.
    rewrite (py_or_find_l _ _ _ _ F). now rewrite (find_truthy _ _ _ F).
  - intros N cls s F Hc.
    apply (find_none_in_document _ _ _
             (fun x => by_testid_has_testid _ x Hv)) in N.
    assert (D : is_dollar_string (Text cls s) = true)
      by (destruct F as (_ & _ & _ & D & _); exact D).
    apply (find_first_in_document _ _ _ _ has_dollar_is) in F.
    pose proof (find_truthy _ _ _ F) as T. simpl in T.
    rewrite N, F. simpl. rewrite T.
    rewrite (get_text_strip_Text _ _ Hc).
    split; [reflexivity|]. split.
    + apply strip_keeps_dollar. change (py "$") with [36%N].
      rewrite str_in_existsb. exact D.
    + intros Ht. now rewrite strip_of_trimmed.
  - intros N1 N2.
    apply (find_none_in_document _ _ _
             (fun x => by_testid_has_testid _ x Hv)) in N1.
    apply (find_none_in_document _ _ _ has_dollar_is) in N2.
    now rewrite N1, N2.
Qed.

Lemma price_first_match_wins_witness :
  exists r, from_soup doc_price_after_text = Ok r /\
            price r = Some (py "$450,000").
Proof.
  eexists; split; [reflexivity|].
  destruct (proj1 price_first_match_wins doc_price_after_text _ eq_refl)
    as (H & _).
  apply (H (Tag (py "span") [(py "data-testid", py "price")]
                [Text NavigableString (py " $450,000 ")])).
  exists [Tag (py "p") [] [Text NavigableString (py "From $1 a day")];
          Text NavigableString (py "From $1 a day")].
  eexists. split; [reflexivity|]. split; [reflexivity|].
  intros x [<- | [<- | []]]; reflexivity.
Defined.
